(** * yamllint, rule [document-start]

    A shallow embedding of [yamllint/rules/document_start.py] and the
    properties of its [check] generator.

    Python integers are unbounded, so token positions and the two
    [*-empty-lines-after] options are values of [Z].  A generator is
    embedded as the list of the problems it yields, in the order in
    which it yields them. *)

From Stdlib Require Import ZArith List String Ascii Bool Lia.
Import ListNotations.
Open Scope string_scope.
Open Scope Z_scope.

(** ** The part of PyYAML the rule looks at *)

Module Yaml.

(** The token classes of [yaml.tokens]; each one derives directly from
    [Token], so no class is a subclass of another one. *)
Inductive TokenClass : Type :=
| DirectiveToken
| DocumentStartToken
| DocumentEndToken
| StreamStartToken
| StreamEndToken
| BlockSequenceStartToken
| BlockMappingStartToken
| BlockEndToken
| FlowSequenceStartToken
| FlowMappingStartToken
| FlowSequenceEndToken
| FlowMappingEndToken
| KeyToken
| ValueToken
| BlockEntryToken
| FlowEntryToken
| AliasToken
| AnchorToken
| TagToken
| ScalarToken.

Definition class_eq_dec (a b : TokenClass) : {a = b} + {a <> b}.
Proof. decide equality. Defined.

(** [yaml.Mark]: a 0-indexed position. *)
Record Mark : Type := mkMark { line : Z; column : Z }.

Record Token : Type := mkToken { class : TokenClass; start_mark : Mark }.

(** [isinstance(x, (c1, ..., cn))], where [x] is a token or [None]. *)
Definition isinstance (x : option Token) (classes : list TokenClass) : bool :=
  match x with
  | None => false
  | Some t => existsb (fun c => if class_eq_dec (class t) c then true else false) classes
  end.

End Yaml.

Import Yaml.

(** ** [yamllint.linter.LintProblem], as [check] builds it *)

Module LintProblem.
Record t : Type := mk { line : Z; column : Z; desc : string }.
End LintProblem.

Abbreviation LintProblem := LintProblem.mk.

(** ** The rule *)

Definition ID : string := "document-start".
Definition TYPE : string := "token".

(** The rule's configuration: the dictionary [conf] after validation
    against [CONF]. *)
Record Conf : Type := mkConf {
  present : bool;
  max_empty_lines_after : Z;
  min_empty_lines_after : Z
}.

Definition DEFAULT : Conf :=
  {| present := true; max_empty_lines_after := -1; min_empty_lines_after := 0 |}.

(** The double quote character, for the messages that quote the marker. *)
Definition dquote : string := String (ascii_of_nat 34) EmptyString.

Definition msg_missing : string :=
  ("missing document start " ++ dquote ++ "---" ++ dquote)%string.
Definition msg_too_many : string := "too many empty lines after document start".
Definition msg_too_few : string := "too few empty lines after document start".
Definition msg_forbidden : string :=
  ("found forbidden document start " ++ dquote ++ "---" ++ dquote)%string.

(** A generator body: [yield] emits one problem, statements are
    sequenced with [;;], an [if] without [else] is [when]. *)
Definition Generator : Type := list LintProblem.t.
Definition yield (p : LintProblem.t) : Generator := [p].
Definition when (c : bool) (body : Generator) : Generator :=
  if c then body else [].
Definition then_ (g1 g2 : Generator) : Generator := (g1 ++ g2)%list.
Notation "g1 ;; g2" := (then_ g1 g2) (at level 61, right associativity).

(** The local variable [empty_lines] of [check]. *)
Definition empty_lines (token prev : Token) : Z :=
  line (start_mark token) - line (start_mark prev) - 1.

Section Check.

(** The linter's per-rule [context] dictionary; [check] never touches it. *)
Variable Context : Type.

Definition check (conf : Conf) (token : Token)
           (prev next nextnext : option Token) (context : Context) : Generator :=
  if present conf then
    when (isinstance prev [StreamStartToken; DocumentEndToken; DirectiveToken]
          && negb (isinstance (Some token)
                     [DocumentStartToken; DirectiveToken; StreamEndToken]))
      (yield (LintProblem (line (start_mark token) + 1) 1 msg_missing)) ;;
    match prev with
    | Some prev' =>
      when (isinstance prev [DocumentStartToken])
        (let empty_lines := empty_lines token prev' in
         when ((max_empty_lines_after conf >=? 0)
               && (empty_lines >? max_empty_lines_after conf))
           (yield (LintProblem (line (start_mark token) + 1)
                               (column (start_mark token) + 1)
                               msg_too_many)) ;;
         when ((min_empty_lines_after conf >? 0)
               && (empty_lines <? min_empty_lines_after conf))
           (yield (LintProblem (line (start_mark token) + 1)
                               (column (start_mark token) + 1)
                               msg_too_few)))
    | None => []
    end
  else
    when (isinstance (Some token) [DocumentStartToken])
      (yield (LintProblem (line (start_mark token) + 1)
                          (column (start_mark token) + 1)
                          msg_forbidden)).

End Check.

Arguments check {Context} conf token prev next nextnext context.

(** The paths through [check] that reach a [yield], one constructor per
    [yield] statement, each with the tests that guard it.  [check_yielded]
    below shows that these are exactly the problems [check] produces. *)
Inductive yielded (conf : Conf) (token : Token) (prev : option Token) :
  LintProblem.t -> Prop :=
| yielded_missing (p : Token) :
    present conf = true ->
    prev = Some p ->
    In (class p) [StreamStartToken; DocumentEndToken; DirectiveToken] ->
    ~ In (class token) [DocumentStartToken; DirectiveToken; StreamEndToken] ->
    yielded conf token prev
      (LintProblem (line (start_mark token) + 1) 1 msg_missing)
| yielded_too_many (p : Token) :
    present conf = true ->
    prev = Some p ->
    class p = DocumentStartToken ->
    0 <= max_empty_lines_after conf ->
    max_empty_lines_after conf < empty_lines token p ->
    yielded conf token prev
      (LintProblem (line (start_mark token) + 1) (column (start_mark token) + 1)
                   msg_too_many)
| yielded_too_few (p : Token) :
    present conf = true ->
    prev = Some p ->
    class p = DocumentStartToken ->
    0 < min_empty_lines_after conf ->
    empty_lines token p < min_empty_lines_after conf ->
    yielded conf token prev
      (LintProblem (line (start_mark token) + 1) (column (start_mark token) + 1)
                   msg_too_few)
| yielded_forbidden :
    present conf = false ->
    class token = DocumentStartToken ->
    yielded conf token prev
      (LintProblem (line (start_mark token) + 1) (column (start_mark token) + 1)
                   msg_forbidden).

(** ** Examples from the rule's documentation *)

Definition tok (c : TokenClass) (l col : Z) : Token := mkToken c (mkMark l col).

(** Moving a token, or a problem, [k] lines down the file. *)
Definition shift_token (k : Z) (t : Token) : Token :=
  mkToken (class t) (mkMark (line (start_mark t) + k) (column (start_mark t))).

Definition shift_problem (k : Z) (q : LintProblem.t) : LintProblem.t :=
  LintProblem (LintProblem.line q + k) (LintProblem.column q) (LintProblem.desc q).

Example check_missing_at_stream_start :
  check DEFAULT (tok BlockMappingStartToken 0 0) (Some (tok StreamStartToken 0 0))
        (Some (tok KeyToken 0 0)) (Some (tok ScalarToken 0 0)) tt
  = [LintProblem 1 1 msg_missing].
Proof. reflexivity. Qed.

Example check_marker_present :
  check DEFAULT (tok DocumentStartToken 0 0) (Some (tok StreamStartToken 0 0))
        None None tt = [].
Proof. reflexivity. Qed.

Example check_marker_forbidden :
  check (mkConf false (-1) 0) (tok DocumentStartToken 0 0)
        (Some (tok StreamStartToken 0 0)) None None tt
  = [LintProblem 1 1 msg_forbidden].
Proof. reflexivity. Qed.

Example check_too_few :
  check (mkConf true (-1) 1) (tok BlockMappingStartToken 1 0)
        (Some (tok DocumentStartToken 0 0)) None None tt
  = [LintProblem 2 1 msg_too_few].
Proof. reflexivity. Qed.

Example check_too_many :
  check (mkConf true 0 0) (tok BlockMappingStartToken 2 0)
        (Some (tok DocumentStartToken 0 0)) None None tt
  = [LintProblem 3 1 msg_too_many].
Proof. reflexivity. Qed.

(** ** Auxiliary facts *)

Lemma isinstance_In (t : Token) (classes : list TokenClass) :
  isinstance (Some t) classes = true <-> In (class t) classes.
Proof.
  unfold isinstance. rewrite existsb_exists. split.
  - intros [c [Hin Hc]].
    destruct (class_eq_dec (class t) c) as [->|]; [assumption | discriminate].
  - intros Hin. exists (class t). split; [assumption|].
    destruct (class_eq_dec (class t) (class t)); [reflexivity | contradiction].
Qed.

Lemma isinstance_not_In (t : Token) (classes : list TokenClass) :
  isinstance (Some t) classes = false <-> ~ In (class t) classes.
Proof.
  rewrite <- isinstance_In. symmetry. apply not_true_iff_false.
Qed.

(** The four messages are pairwise different. *)
Lemma msg_missing_too_many : msg_missing <> msg_too_many.
Proof. discriminate. Qed.
Lemma msg_missing_too_few : msg_missing <> msg_too_few.
Proof. discriminate. Qed.
Lemma msg_missing_forbidden : msg_missing <> msg_forbidden.
Proof. discriminate. Qed.
Lemma msg_too_many_too_few : msg_too_many <> msg_too_few.
Proof. discriminate. Qed.
Lemma msg_too_many_forbidden : msg_too_many <> msg_forbidden.
Proof. discriminate. Qed.
Lemma msg_too_few_forbidden : msg_too_few <> msg_forbidden.
Proof. discriminate. Qed.

Create HintDb msgs.

#[local] Hint Resolve msg_missing_too_many msg_missing_too_few
  msg_missing_forbidden msg_too_many_too_few msg_too_many_forbidden
  msg_too_few_forbidden : msgs.

Lemma msg_neq_sym (a b : string) : a <> b -> b <> a.
Proof. intros H E. apply H. symmetry. exact E. Qed.

#[local] Hint Immediate msg_neq_sym : msgs.

(** Turn the boolean tests of [check] into propositions. *)
Ltac reflect_tests :=
  repeat match goal with
  | H : (_ && _)%bool = true |- _ => apply andb_true_iff in H; destruct H
  | H : (_ && _)%bool = false |- _ => apply andb_false_iff in H
  | H : negb _ = true |- _ => apply negb_true_iff in H
  | H : negb _ = false |- _ => apply negb_false_iff in H
  | H : isinstance (Some _) _ = true |- _ => apply isinstance_In in H; simpl in H
  | H : isinstance (Some _) _ = false |- _ => apply isinstance_not_In in H; simpl in H
  | H : (_ >=? _) = _ |- _ => rewrite Z.geb_leb in H
  | H : (_ >? _) = _ |- _ => rewrite Z.gtb_ltb in H
  | H : (_ <=? _) = true |- _ => apply Z.leb_le in H
  | H : (_ <=? _) = false |- _ => apply Z.leb_gt in H
  | H : (_ <? _) = true |- _ => apply Z.ltb_lt in H
  | H : (_ <? _) = false |- _ => apply Z.ltb_ge in H
  end.

Lemma in_when (c : bool) (body : Generator) (q : LintProblem.t) :
  In q (when c body) <-> c = true /\ In q body.
Proof.
  destruct c; simpl; split; intros H; try tauto.
  destruct H; discriminate.
Qed.

Section CheckShape.

Variable Context : Type.
Variables (conf : Conf) (token : Token) (prev next nextnext : option Token).
Variable context : Context.

(** With the marker forbidden, only the last branch of [check] runs. *)
Lemma check_forbid :
  present conf = false ->
  check conf token prev next nextnext context =
  when (isinstance (Some token) [DocumentStartToken])
    [LintProblem (line (start_mark token) + 1) (column (start_mark token) + 1)
                 msg_forbidden].
Proof. intros Hp. unfold check. rewrite Hp. reflexivity. Qed.

(** With the marker required, the two tests on [prev] exclude each
    other, so at most one of the two blocks runs. *)
Lemma check_require :
  present conf = true ->
  check conf token prev next nextnext context =
  match prev with
  | None => []
  | Some p =>
    if isinstance prev [StreamStartToken; DocumentEndToken; DirectiveToken] then
      when (negb (isinstance (Some token)
                    [DocumentStartToken; DirectiveToken; StreamEndToken]))
        [LintProblem (line (start_mark token) + 1) 1 msg_missing]
    else if isinstance prev [DocumentStartToken] then
      (when ((max_empty_lines_after conf >=? 0)
             && (empty_lines token p >? max_empty_lines_after conf))
         [LintProblem (line (start_mark token) + 1) (column (start_mark token) + 1)
                      msg_too_many]
       ++
       when ((min_empty_lines_after conf >? 0)
             && (empty_lines token p <? min_empty_lines_after conf))
         [LintProblem (line (start_mark token) + 1) (column (start_mark token) + 1)
                      msg_too_few])%list
    else []
  end.
Proof.
  intros Hp. unfold check. rewrite Hp.
  destruct prev as [[pc pm]|]; [|reflexivity].
  destruct pc; cbn [isinstance existsb class orb andb when then_ yield app];
    try reflexivity;
    try (destruct (negb _); reflexivity).
Qed.

End CheckShape.

Lemma check_yielded {Context : Type} (conf : Conf) (token : Token)
    (prev next nextnext : option Token) (context : Context) (q : LintProblem.t) :
  In q (check conf token prev next nextnext context) <-> yielded conf token prev q.
Proof.
  destruct (present conf) eqn:Hp.
  - rewrite (check_require _ _ _ _ _ _ _ Hp). split.
    + destruct prev as [p|]; [|intros []].
      destruct (isinstance (Some p)
                  [StreamStartToken; DocumentEndToken; DirectiveToken]) eqn:Ho.
      * rewrite in_when. intros [Ht [<-|[]]]. reflect_tests.
        now apply yielded_missing with p.
      * destruct (isinstance (Some p) [DocumentStartToken]) eqn:Hd; [|intros []].
        reflect_tests. destruct Hd as [Hd|[]].
        rewrite in_app_iff, !in_when, !andb_true_iff, Z.geb_le, !Z.gtb_lt, Z.ltb_lt.
        intros [[[? ?] [<-|[]]]|[[? ?] [<-|[]]]].
        -- now apply yielded_too_many with p.
        -- now apply yielded_too_few with p.
    + intros Hy. inversion Hy as [p _ -> Ho Ht|p _ -> Hd ? ?|p _ -> Hd ? ?|Hf _];
        try congruence.
      * apply isinstance_In in Ho. apply isinstance_not_In in Ht.
        rewrite Ho, Ht. simpl. auto.
      * assert (Ho : isinstance (Some p)
                       [StreamStartToken; DocumentEndToken; DirectiveToken] = false).
        { apply isinstance_not_In. rewrite Hd. simpl. intuition discriminate. }
        assert (Hd' : isinstance (Some p) [DocumentStartToken] = true).
        { apply isinstance_In. rewrite Hd. simpl. auto. }
        rewrite Ho, Hd', in_app_iff, !in_when. left.
        rewrite andb_true_iff, Z.geb_le, Z.gtb_lt. simpl. auto.
      * assert (Ho : isinstance (Some p)
                       [StreamStartToken; DocumentEndToken; DirectiveToken] = false).
        { apply isinstance_not_In. rewrite Hd. simpl. intuition discriminate. }
        assert (Hd' : isinstance (Some p) [DocumentStartToken] = true).
        { apply isinstance_In. rewrite Hd. simpl. auto. }
        rewrite Ho, Hd', in_app_iff, !in_when. right.
        rewrite andb_true_iff, Z.gtb_lt, Z.ltb_lt. simpl. auto.
  - rewrite (check_forbid _ _ _ _ _ _ _ Hp), in_when. split.
    + intros [Ht [<-|[]]]. reflect_tests. destruct Ht as [Ht|[]].
      now apply yielded_forbidden.
    + intros Hy. inversion Hy as [| | |_ Ht]; try congruence.
      split; [|simpl; auto]. apply isinstance_In. rewrite Ht. simpl. auto.
Qed.

(** ** Properties of [check] *)

(** C1. With [present = true]: when the previous token is a stream start,
    a document end or a directive, and the current token is neither a
    document start, nor a directive, nor the stream end, [check] yields
    the problem [missing document start "---"] at line
    [token.line + 1], column [1] (and nothing else); in every other case
    no problem with that message is yielded. *)
Theorem check_missing_marker {Context : Type} (conf : Conf) (token : Token)
    (prev next nextnext : option Token) (context : Context) :
  present conf = true ->
  let out := check conf token prev next nextnext context in
  let opener :=
    exists p, prev = Some p /\
      (class p = StreamStartToken \/ class p = DocumentEndToken \/
       class p = DirectiveToken) in
  let content :=
    class token <> DocumentStartToken /\ class token <> DirectiveToken /\
    class token <> StreamEndToken in
  (opener /\ content ->
   out = [LintProblem (line (start_mark token) + 1) 1 msg_missing]) /\
  (~ (opener /\ content) ->
   forall p, In p out -> LintProblem.desc p <> msg_missing).
Proof.
  intros Hp out opener content. subst out opener content.
  rewrite (check_require _ _ _ _ _ _ _ Hp). split.
  - intros [[p [-> Hc]] (Hds & Hdir & Hse)].
    assert (Hi : isinstance (Some p)
                   [StreamStartToken; DocumentEndToken; DirectiveToken] = true).
    { apply isinstance_In. simpl. intuition. }
    rewrite Hi.
    assert (Ht : isinstance (Some token)
                   [DocumentStartToken; DirectiveToken; StreamEndToken] = false).
    { apply isinstance_not_In. simpl. intuition. }
    rewrite Ht. reflexivity.
  - intros Hn q Hq. destruct prev as [p|]; [|contradiction].
    destruct (isinstance (Some p) [StreamStartToken; DocumentEndToken; DirectiveToken])
      eqn:Hi.
    + destruct (isinstance (Some token)
                  [DocumentStartToken; DirectiveToken; StreamEndToken]) eqn:Ht;
        [contradiction|].
      exfalso. apply Hn. reflect_tests. split.
      * exists p. split; [reflexivity|]. intuition.
      * repeat split; intro E; apply Ht; rewrite E; intuition.
    + destruct (isinstance (Some p) [DocumentStartToken]); [|contradiction].
      apply in_app_or in Hq.
      destruct Hq as [Hq|Hq];
        match type of Hq with
        | In _ (when ?c _) => destruct c; simpl in Hq; [|contradiction]
        end;
        destruct Hq as [<-|[]]; simpl; auto with msgs.
Qed.

Lemma check_missing_marker_witness :
  present DEFAULT = true /\
  check DEFAULT (tok ScalarToken 4 2) (Some (tok DocumentEndToken 3 0)) None None tt
  = [LintProblem 5 1 msg_missing] /\
  forall p,
    In p (check DEFAULT (tok DocumentStartToken 4 0) (Some (tok DocumentEndToken 3 0))
            None None tt) ->
    LintProblem.desc p <> msg_missing.
Proof.
  split; [reflexivity|]. split.
  - apply (check_missing_marker DEFAULT (tok ScalarToken 4 2)
             (Some (tok DocumentEndToken 3 0)) None None tt eq_refl).
    split.
    + exists (tok DocumentEndToken 3 0). split; [reflexivity|].
      right; left; reflexivity.
    + repeat split; discriminate.
  - apply (check_missing_marker DEFAULT (tok DocumentStartToken 4 0)
             (Some (tok DocumentEndToken 3 0)) None None tt eq_refl).
    intros [_ [H _]]. apply H. reflexivity.
Defined.

(** C2. With [present = true] and a previous token that is a document
    start, [empty_lines = token.line - prev.line - 1]; the problem
    [too many empty lines after document start] is yielded at
    [(token.line + 1, token.column + 1)] exactly when
    [max-empty-lines-after >= 0] and [empty_lines > max-empty-lines-after];
    the problem [too few empty lines after document start] is yielded at
    the same position exactly when [min-empty-lines-after > 0] and
    [empty_lines < min-empty-lines-after]; and every problem yielded is
    one of these two, at that position. *)
Theorem check_empty_lines {Context : Type} (conf : Conf) (token p : Token)
    (next nextnext : option Token) (context : Context) :
  present conf = true ->
  class p = DocumentStartToken ->
  let out := check conf token (Some p) next nextnext context in
  let l := line (start_mark token) + 1 in
  let c := column (start_mark token) + 1 in
  empty_lines token p = line (start_mark token) - line (start_mark p) - 1 /\
  (In (LintProblem l c msg_too_many) out <->
   max_empty_lines_after conf >= 0 /\
   empty_lines token p > max_empty_lines_after conf) /\
  (In (LintProblem l c msg_too_few) out <->
   min_empty_lines_after conf > 0 /\
   empty_lines token p < min_empty_lines_after conf) /\
  (forall q, In q out ->
     q = LintProblem l c msg_too_many \/ q = LintProblem l c msg_too_few).
Proof.
  intros Hp Hc out l c. subst out l c.
  rewrite (check_require _ _ _ _ _ _ _ Hp).
  assert (H1 : isinstance (Some p)
                 [StreamStartToken; DocumentEndToken; DirectiveToken] = false).
  { apply isinstance_not_In. rewrite Hc. simpl. intuition discriminate. }
  assert (H2 : isinstance (Some p) [DocumentStartToken] = true).
  { apply isinstance_In. rewrite Hc. simpl. auto. }
  rewrite H1, H2. split; [reflexivity|].
  pose proof msg_too_many_too_few as Hneq.
  split; [split | split; [split|]].
  - rewrite in_app_iff, !in_when, !andb_true_iff, Z.geb_le, !Z.gtb_lt, Z.ltb_lt.
    simpl. intros [[[? ?] _]|[_ [E|[]]]]; [lia | congruence].
  - rewrite in_app_iff, !in_when, !andb_true_iff, Z.geb_le, !Z.gtb_lt, Z.ltb_lt.
    simpl. intros [H H']. left. split; [lia | auto].
  - rewrite in_app_iff, !in_when, !andb_true_iff, Z.geb_le, !Z.gtb_lt, Z.ltb_lt.
    simpl. intros [[_ [E|[]]]|[[? ?] _]]; [congruence | lia].
  - rewrite in_app_iff, !in_when, !andb_true_iff, Z.geb_le, !Z.gtb_lt, Z.ltb_lt.
    simpl. intros [H H']. right. split; [lia | auto].
  - intros q. rewrite in_app_iff, !in_when. simpl.
    intros [[_ [E|[]]]|[_ [E|[]]]]; auto.
Qed.

Lemma check_empty_lines_witness :
  present (mkConf true 0 1) = true /\
  class (tok DocumentStartToken 0 0) = DocumentStartToken /\
  In (LintProblem 3 5 msg_too_many)
     (check (mkConf true 0 1) (tok ScalarToken 2 4)
        (Some (tok DocumentStartToken 0 0)) None None tt) /\
  ~ In (LintProblem 3 5 msg_too_few)
     (check (mkConf true 0 1) (tok ScalarToken 2 4)
        (Some (tok DocumentStartToken 0 0)) None None tt).
Proof.
  split; [reflexivity|]. split; [reflexivity|].
  destruct (check_empty_lines (mkConf true 0 1) (tok ScalarToken 2 4)
              (tok DocumentStartToken 0 0) None None tt eq_refl eq_refl)
    as (_ & Hmany & Hfew & _).
  split.
  - apply Hmany. unfold empty_lines. simpl. lia.
  - intros H. apply Hfew in H. unfold empty_lines in H. simpl in H. lia.
Defined.

(** C3. With [present = false], [check] yields exactly the problem
    [found forbidden document start "---"] at
    [(token.line + 1, token.column + 1)] when the current token is a
    document start and yields nothing otherwise, whatever the two
    empty-lines options and the previous token are. *)
Theorem check_forbidden_marker {Context : Type} (conf : Conf) (token : Token)
    (prev next nextnext : option Token) (context : Context) :
  present conf = false ->
  (class token = DocumentStartToken ->
   check conf token prev next nextnext context =
   [LintProblem (line (start_mark token) + 1) (column (start_mark token) + 1)
                msg_forbidden]) /\
  (class token <> DocumentStartToken ->
   check conf token prev next nextnext context = []).
Proof.
  intros Hp. rewrite (check_forbid _ _ _ _ _ _ _ Hp). split; intros Hc.
  - assert (Ht : isinstance (Some token) [DocumentStartToken] = true).
    { apply isinstance_In. rewrite Hc. simpl. auto. }
    rewrite Ht. reflexivity.
  - assert (Ht : isinstance (Some token) [DocumentStartToken] = false).
    { apply isinstance_not_In. simpl. intros [E|[]]. auto. }
    rewrite Ht. reflexivity.
Qed.

Lemma check_forbidden_marker_witness :
  present (mkConf false 0 3) = false /\
  check (mkConf false 0 3) (tok DocumentStartToken 7 0)
        (Some (tok DocumentEndToken 6 0)) None None tt
  = [LintProblem 8 1 msg_forbidden] /\
  check (mkConf false 0 3) (tok ScalarToken 9 2)
        (Some (tok DocumentStartToken 7 0)) None None tt
  = [].
Proof.
  split; [reflexivity|]. split.
  - apply (check_forbidden_marker (mkConf false 0 3) (tok DocumentStartToken 7 0)
             (Some (tok DocumentEndToken 6 0)) None None tt eq_refl).
    reflexivity.
  - apply (check_forbidden_marker (mkConf false 0 3) (tok ScalarToken 9 2)
             (Some (tok DocumentStartToken 7 0)) None None tt eq_refl).
    discriminate.
Defined.

(** C4. Some input makes [check] yield both empty-lines problems in one
    call; and whenever [present = true], the previous token is a document
    start, [min-empty-lines-after > max-empty-lines-after >= 0] and
    [max-empty-lines-after < empty_lines < min-empty-lines-after], both
    tests succeed and [check] yields [too many ...] then [too few ...]. *)
Theorem check_both_bounds_fire :
  (exists (conf : Conf) (token p : Token),
     let out := check conf token (Some p) None None tt in
     In (LintProblem (line (start_mark token) + 1) (column (start_mark token) + 1)
                     msg_too_many) out /\
     In (LintProblem (line (start_mark token) + 1) (column (start_mark token) + 1)
                     msg_too_few) out) /\
  (forall (Context : Type) (conf : Conf) (token p : Token)
          (next nextnext : option Token) (context : Context),
     present conf = true ->
     class p = DocumentStartToken ->
     min_empty_lines_after conf > max_empty_lines_after conf ->
     max_empty_lines_after conf >= 0 ->
     max_empty_lines_after conf < empty_lines token p ->
     empty_lines token p < min_empty_lines_after conf ->
     check conf token (Some p) next nextnext context =
     [LintProblem (line (start_mark token) + 1) (column (start_mark token) + 1)
                  msg_too_many;
      LintProblem (line (start_mark token) + 1) (column (start_mark token) + 1)
                  msg_too_few]).
Proof.
  split.
  - exists (mkConf true 0 2), (tok ScalarToken 2 0), (tok DocumentStartToken 0 0).
    simpl. auto.
  - intros Context conf token p next nextnext context Hp Hc Hmm Hmax Hlo Hhi.
    rewrite (check_require _ _ _ _ _ _ _ Hp).
    assert (Ho : isinstance (Some p)
                   [StreamStartToken; DocumentEndToken; DirectiveToken] = false).
    { apply isinstance_not_In. rewrite Hc. simpl. intuition discriminate. }
    assert (Hd : isinstance (Some p) [DocumentStartToken] = true).
    { apply isinstance_In. rewrite Hc. simpl. auto. }
    rewrite Ho, Hd.
    assert (H1 : ((max_empty_lines_after conf >=? 0)
                  && (empty_lines token p >? max_empty_lines_after conf))%bool = true).
    { rewrite andb_true_iff, Z.geb_le, Z.gtb_lt. lia. }
    assert (H2 : ((min_empty_lines_after conf >? 0)
                  && (empty_lines token p <? min_empty_lines_after conf))%bool = true).
    { rewrite andb_true_iff, Z.gtb_lt, Z.ltb_lt. lia. }
    rewrite H1, H2. reflexivity.
Qed.

Lemma check_both_bounds_fire_witness :
  present (mkConf true 0 2) = true /\
  class (tok DocumentStartToken 0 0) = DocumentStartToken /\
  min_empty_lines_after (mkConf true 0 2) > max_empty_lines_after (mkConf true 0 2) /\
  max_empty_lines_after (mkConf true 0 2) >= 0 /\
  max_empty_lines_after (mkConf true 0 2)
    < empty_lines (tok ScalarToken 2 0) (tok DocumentStartToken 0 0) /\
  empty_lines (tok ScalarToken 2 0) (tok DocumentStartToken 0 0)
    < min_empty_lines_after (mkConf true 0 2) /\
  check (mkConf true 0 2) (tok ScalarToken 2 0) (Some (tok DocumentStartToken 0 0))
        None None tt
  = [LintProblem 3 1 msg_too_many; LintProblem 3 1 msg_too_few].
Proof.
  assert (H1 : min_empty_lines_after (mkConf true 0 2)
               > max_empty_lines_after (mkConf true 0 2)) by (simpl; lia).
  assert (H2 : max_empty_lines_after (mkConf true 0 2) >= 0) by (simpl; lia).
  assert (H3 : max_empty_lines_after (mkConf true 0 2)
               < empty_lines (tok ScalarToken 2 0) (tok DocumentStartToken 0 0))
    by (unfold empty_lines; simpl; lia).
  assert (H4 : empty_lines (tok ScalarToken 2 0) (tok DocumentStartToken 0 0)
               < min_empty_lines_after (mkConf true 0 2))
    by (unfold empty_lines; simpl; lia).
  repeat (split; [first [reflexivity | assumption]|]).
  exact (proj2 check_both_bounds_fire unit (mkConf true 0 2) (tok ScalarToken 2 0)
           (tok DocumentStartToken 0 0) None None tt eq_refl eq_refl H1 H2 H3 H4).
Defined.

(** C5. The problems [check] yields are a function of the configuration,
    the previous token and the current token alone: two calls that agree
    on these yield the same sequence, whatever [next], [nextnext] and
    [context] are in each. *)
Theorem check_reads_conf_prev_token {Context1 Context2 : Type}
    (conf : Conf) (token : Token) (prev : option Token)
    (next1 nextnext1 : option Token) (context1 : Context1)
    (next2 nextnext2 : option Token) (context2 : Context2) :
  check conf token prev next1 nextnext1 context1 =
  check conf token prev next2 nextnext2 context2.
Proof. reflexivity. Qed.

(** C6. One call of [check] yields zero, one or two problems.  The test
    that guards the missing-marker problem and the test that guards the
    empty-lines problems never both hold for one previous token, so no
    call yields a missing-marker problem together with an empty-lines
    problem, and the only sequence of two problems is [too many ...]
    followed by [too few ...]. *)
Theorem check_yields_at_most_two {Context : Type} (conf : Conf) (token : Token)
    (prev next nextnext : option Token) (context : Context) :
  let out := check conf token prev next nextnext context in
  let l := line (start_mark token) + 1 in
  let c := column (start_mark token) + 1 in
  (List.length out <= 2)%nat /\
  (out = [] \/
   out = [LintProblem l 1 msg_missing] \/
   out = [LintProblem l c msg_too_many] \/
   out = [LintProblem l c msg_too_few] \/
   out = [LintProblem l c msg_too_many; LintProblem l c msg_too_few] \/
   out = [LintProblem l c msg_forbidden]) /\
  (isinstance prev [StreamStartToken; DocumentEndToken; DirectiveToken]
   && isinstance prev [DocumentStartToken])%bool = false /\
  ~ (exists q r, In q out /\ In r out /\
       LintProblem.desc q = msg_missing /\
       (LintProblem.desc r = msg_too_many \/ LintProblem.desc r = msg_too_few)).
Proof.
  intros out l c.
  assert (Hshape :
    out = [] \/
    out = [LintProblem l 1 msg_missing] \/
    out = [LintProblem l c msg_too_many] \/
    out = [LintProblem l c msg_too_few] \/
    out = [LintProblem l c msg_too_many; LintProblem l c msg_too_few] \/
    out = [LintProblem l c msg_forbidden]).
  { subst out l c. destruct (present conf) eqn:Hp.
    - rewrite (check_require _ _ _ _ _ _ _ Hp).
      destruct prev as [p|]; [|auto].
      destruct (isinstance (Some p) _).
      + destruct (negb _); simpl; auto.
      + destruct (isinstance (Some p) _); [|auto].
        destruct (_ && _)%bool; destruct (_ && _)%bool; simpl; auto 10.
    - rewrite (check_forbid _ _ _ _ _ _ _ Hp).
      destruct (isinstance (Some token) _); simpl; auto 10. }
  split; [|split; [exact Hshape|split]].
  - destruct Hshape as [E | [E | [E | [E | [E | E]]]]]; rewrite E; simpl; lia.
  - destruct prev as [[pc pm]|]; [|reflexivity]. destruct pc; reflexivity.
  - intros (q & r & Hq & Hr & Eq & Er).
    pose proof msg_missing_too_many. pose proof msg_missing_too_few.
    pose proof msg_missing_forbidden. pose proof msg_too_many_too_few.
    destruct Hshape as [E|[E|[E|[E|[E|E]]]]]; rewrite E in Hq, Hr;
      simpl in Hq, Hr;
      repeat match goal with
      | H : _ \/ _ |- _ => destruct H
      | H : False |- _ => destruct H
      end; subst; simpl in *; congruence.
Qed.

(** C7. With a negative [max-empty-lines-after] (in particular the
    default [-1]) no call of [check] yields the problem
    [too many empty lines after document start]. *)
Theorem check_max_disabled {Context : Type} (conf : Conf) (token : Token)
    (prev next nextnext : option Token) (context : Context) :
  max_empty_lines_after conf < 0 ->
  forall q, In q (check conf token prev next nextnext context) ->
    LintProblem.desc q <> msg_too_many.
Proof.
  intros Hmax q Hq. apply check_yielded in Hq.
  inversion Hq; subst; simpl; auto with msgs. lia.
Qed.

Lemma check_max_disabled_witness :
  max_empty_lines_after (mkConf true (-1) 0) < 0 /\
  forall q,
    In q (check (mkConf true (-1) 0) (tok ScalarToken 40 0)
            (Some (tok DocumentStartToken 0 0)) None None tt) ->
    LintProblem.desc q <> msg_too_many.
Proof.
  assert (H : max_empty_lines_after (mkConf true (-1) 0) < 0) by (simpl; lia).
  split; [exact H|].
  exact (check_max_disabled (mkConf true (-1) 0) (tok ScalarToken 40 0)
           (Some (tok DocumentStartToken 0 0)) None None tt H).
Defined.

(** C8. A directive is never flagged: when the current token is a
    directive, [check] yields neither [missing document start "---"] nor
    [found forbidden document start "---"], in either mode.  A directive
    as the previous token still makes the marker required: with
    [present = true], a current token that is neither a document start,
    nor a directive, nor the stream end gets the missing-marker problem. *)
Theorem check_directive_never_flagged {Context : Type} (conf : Conf)
    (token : Token) (prev next nextnext : option Token) (context : Context) :
  (class token = DirectiveToken ->
   forall q, In q (check conf token prev next nextnext context) ->
     LintProblem.desc q <> msg_missing /\ LintProblem.desc q <> msg_forbidden) /\
  (present conf = true ->
   (exists p, prev = Some p /\ class p = DirectiveToken) ->
   class token <> DocumentStartToken ->
   class token <> DirectiveToken ->
   class token <> StreamEndToken ->
   In (LintProblem (line (start_mark token) + 1) 1 msg_missing)
      (check conf token prev next nextnext context)).
Proof.
  split.
  - intros Hc q Hq. apply check_yielded in Hq.
    inversion Hq as [p _ _ _ Ht| | |_ Ht]; subst; simpl.
    + exfalso. apply Ht. rewrite Hc. simpl. auto.
    + split; auto with msgs.
    + split; auto with msgs.
    + congruence.
  - intros Hp [p [-> Hc]] Hds Hdir Hse. apply check_yielded.
    apply yielded_missing with p; auto.
    + rewrite Hc. simpl. auto.
    + simpl. intuition.
Qed.

Lemma check_directive_never_flagged_witness :
  (class (tok DirectiveToken 0 0) = DirectiveToken /\
   forall q,
     In q (check DEFAULT (tok DirectiveToken 0 0) (Some (tok StreamStartToken 0 0))
             None None tt) ->
     LintProblem.desc q <> msg_missing /\ LintProblem.desc q <> msg_forbidden) /\
  (present DEFAULT = true /\
   In (LintProblem 2 1 msg_missing)
      (check DEFAULT (tok BlockMappingStartToken 1 0) (Some (tok DirectiveToken 0 0))
         None None tt)).
Proof.
  split; (split; [reflexivity|]).
  - exact (proj1 (check_directive_never_flagged DEFAULT (tok DirectiveToken 0 0)
                    (Some (tok StreamStartToken 0 0)) None None tt) eq_refl).
  - apply (proj2 (check_directive_never_flagged DEFAULT
                    (tok BlockMappingStartToken 1 0)
                    (Some (tok DirectiveToken 0 0)) None None tt) eq_refl).
    + exists (tok DirectiveToken 0 0). split; reflexivity.
    + discriminate.
    + discriminate.
    + discriminate.
Defined.

(** C9. Problems carry 1-indexed, positive coordinates: for a current
    token whose 0-indexed line and column are non-negative, every problem
    yielded has line [token.line + 1 >= 1], and its column is [1] for the
    missing-marker problem and [token.column + 1] for every other
    problem, hence [>= 1] too. *)
Theorem check_positions_one_indexed {Context : Type} (conf : Conf)
    (token : Token) (prev next nextnext : option Token) (context : Context) :
  0 <= line (start_mark token) ->
  0 <= column (start_mark token) ->
  forall q, In q (check conf token prev next nextnext context) ->
    LintProblem.line q = line (start_mark token) + 1 /\
    1 <= LintProblem.line q /\
    1 <= LintProblem.column q /\
    ((LintProblem.desc q = msg_missing /\ LintProblem.column q = 1) \/
     (LintProblem.desc q <> msg_missing /\
      LintProblem.column q = column (start_mark token) + 1)).
Proof.
  intros Hl Hc q Hq. apply check_yielded in Hq.
  inversion Hq; subst; simpl; repeat split; try lia;
    solve [left; split; reflexivity | right; split; auto with msgs].
Qed.

Lemma check_positions_one_indexed_witness :
  0 <= line (start_mark (tok ScalarToken 0 0)) /\
  0 <= column (start_mark (tok ScalarToken 0 0)) /\
  forall q,
    In q (check DEFAULT (tok ScalarToken 0 0) (Some (tok StreamStartToken 0 0))
            None None tt) ->
    LintProblem.line q = 1 /\ 1 <= LintProblem.line q /\ 1 <= LintProblem.column q.
Proof.
  assert (Hl : 0 <= line (start_mark (tok ScalarToken 0 0))) by (simpl; lia).
  assert (Hc : 0 <= column (start_mark (tok ScalarToken 0 0))) by (simpl; lia).
  split; [exact Hl|]. split; [exact Hc|].
  intros q Hq.
  destruct (check_positions_one_indexed DEFAULT (tok ScalarToken 0 0)
              (Some (tok StreamStartToken 0 0)) None None tt Hl Hc q Hq)
    as (H1 & H2 & H3 & _).
  auto.
Defined.

(** C10. [empty_lines] is not clamped at zero: with [present = true], a
    previous token that is a document start and a current token on the
    marker's line, [empty_lines] is [-1]; so the [too many ...] problem is
    never yielded for such a token, whereas the [too few ...] problem is
    yielded whenever [min-empty-lines-after >= 1]. *)
Theorem check_same_line_not_clamped {Context : Type} (conf : Conf)
    (token p : Token) (next nextnext : option Token) (context : Context) :
  present conf = true ->
  class p = DocumentStartToken ->
  line (start_mark token) = line (start_mark p) ->
  let out := check conf token (Some p) next nextnext context in
  empty_lines token p = -1 /\
  (forall q, In q out -> LintProblem.desc q <> msg_too_many) /\
  (min_empty_lines_after conf >= 1 ->
   out = [LintProblem (line (start_mark token) + 1) (column (start_mark token) + 1)
                      msg_too_few]).
Proof.
  intros Hp Hc Hl out.
  assert (He : empty_lines token p = -1) by (unfold empty_lines; lia).
  split; [exact He|]. subst out. split.
  - intros q Hq. apply check_yielded in Hq.
    inversion Hq as [|p' _ E _ ? ?| |]; subst; simpl; auto with msgs.
    injection E as <-. lia.
  - intros Hmin. rewrite (check_require _ _ _ _ _ _ _ Hp).
    assert (Ho : isinstance (Some p)
                   [StreamStartToken; DocumentEndToken; DirectiveToken] = false).
    { apply isinstance_not_In. rewrite Hc. simpl. intuition discriminate. }
    assert (Hd : isinstance (Some p) [DocumentStartToken] = true).
    { apply isinstance_In. rewrite Hc. simpl. auto. }
    rewrite Ho, Hd, He.
    assert (H1 : ((max_empty_lines_after conf >=? 0)
                  && (-1 >? max_empty_lines_after conf))%bool = false).
    { rewrite andb_false_iff, Z.geb_leb, Z.gtb_ltb, Z.leb_gt, Z.ltb_ge. lia. }
    assert (H2 : ((min_empty_lines_after conf >? 0)
                  && (-1 <? min_empty_lines_after conf))%bool = true).
    { rewrite andb_true_iff, Z.gtb_lt, Z.ltb_lt. lia. }
    rewrite H1, H2. reflexivity.
Qed.

Lemma check_same_line_not_clamped_witness :
  present (mkConf true 0 1) = true /\
  class (tok DocumentStartToken 3 0) = DocumentStartToken /\
  line (start_mark (tok ScalarToken 3 4)) = line (start_mark (tok DocumentStartToken 3 0)) /\
  empty_lines (tok ScalarToken 3 4) (tok DocumentStartToken 3 0) = -1 /\
  check (mkConf true 0 1) (tok ScalarToken 3 4) (Some (tok DocumentStartToken 3 0))
        None None tt
  = [LintProblem 4 5 msg_too_few].
Proof.
  split; [reflexivity|]. split; [reflexivity|]. split; [reflexivity|].
  destruct (check_same_line_not_clamped (mkConf true 0 1) (tok ScalarToken 3 4)
              (tok DocumentStartToken 3 0) None None tt eq_refl eq_refl eq_refl)
    as (He & _ & Hfew).
  split; [exact He|]. apply Hfew. simpl. lia.
Defined.

(** ** Further properties of [check] *)

(** X1. The lower bound is off for [min-empty-lines-after <= 0] (the
    default is [0]): no call yields
    [too few empty lines after document start]. *)
Theorem check_min_disabled {Context : Type} (conf : Conf) (token : Token)
    (prev next nextnext : option Token) (context : Context) :
  min_empty_lines_after conf <= 0 ->
  forall q, In q (check conf token prev next nextnext context) ->
    LintProblem.desc q <> msg_too_few.
Proof.
  intros Hmin q Hq. apply check_yielded in Hq.
  inversion Hq; subst; simpl; auto with msgs. lia.
Qed.

Lemma check_min_disabled_witness :
  min_empty_lines_after (mkConf true 3 0) <= 0 /\
  forall q,
    In q (check (mkConf true 3 0) (tok ScalarToken 0 4)
            (Some (tok DocumentStartToken 0 0)) None None tt) ->
    LintProblem.desc q <> msg_too_few.
Proof.
  assert (H : min_empty_lines_after (mkConf true 3 0) <= 0) by (simpl; lia).
  split; [exact H|].
  exact (check_min_disabled (mkConf true 3 0) (tok ScalarToken 0 4)
           (Some (tok DocumentStartToken 0 0)) None None tt H).
Defined.

(** X2. With the default configuration the rule only asks for the
    marker: every problem a call yields is the missing-marker problem at
    [(token.line + 1, 1)], and a call yields at most one. *)
Theorem check_default_only_missing {Context : Type} (token : Token)
    (prev next nextnext : option Token) (context : Context) :
  let out := check DEFAULT token prev next nextnext context in
  (List.length out <= 1)%nat /\
  forall q, In q out ->
    q = LintProblem (line (start_mark token) + 1) 1 msg_missing.
Proof.
  intros out. subst out.
  rewrite (check_require _ DEFAULT token prev next nextnext context eq_refl).
  destruct prev as [p|]; [|split; [simpl; lia | intros q []]].
  destruct (isinstance (Some p) _).
  - destruct (negb _); simpl; split; try lia.
    intros q [<-|[]]. reflexivity.
  - destruct (isinstance (Some p) _); simpl; split; try lia.
Qed.

(** X3. With [present = true] the rule is silent inside a document: on
    the first call (no previous token) and after any token that is not a
    stream start, a document end, a directive or a document start,
    [check] yields nothing, whatever the current token and the two
    empty-lines options are. *)
Theorem check_silent_inside_document {Context : Type} (conf : Conf)
    (token : Token) (prev next nextnext : option Token) (context : Context) :
  present conf = true ->
  (prev = None \/
   exists p, prev = Some p /\
     class p <> StreamStartToken /\ class p <> DocumentEndToken /\
     class p <> DirectiveToken /\ class p <> DocumentStartToken) ->
  check conf token prev next nextnext context = [].
Proof.
  intros Hp Hprev. rewrite (check_require _ _ _ _ _ _ _ Hp).
  destruct Hprev as [->|[p [-> (Hss & Hde & Hdir & Hds)]]]; [reflexivity|].
  assert (Ho : isinstance (Some p)
                 [StreamStartToken; DocumentEndToken; DirectiveToken] = false).
  { apply isinstance_not_In. simpl. intuition. }
  assert (Hd : isinstance (Some p) [DocumentStartToken] = false).
  { apply isinstance_not_In. simpl. intuition. }
  rewrite Ho, Hd. reflexivity.
Qed.

Lemma check_silent_inside_document_witness :
  present (mkConf true 0 5) = true /\
  check (mkConf true 0 5) (tok ScalarToken 9 2) (Some (tok KeyToken 1 0))
        None None tt = [] /\
  check (mkConf true 0 5) (tok StreamStartToken 0 0) None None None tt = [].
Proof.
  split; [reflexivity|]. split.
  - apply (check_silent_inside_document (mkConf true 0 5) (tok ScalarToken 9 2)
             (Some (tok KeyToken 1 0)) None None tt eq_refl).
    right. exists (tok KeyToken 1 0).
    split; [reflexivity|]. repeat split; discriminate.
  - apply (check_silent_inside_document (mkConf true 0 5) (tok StreamStartToken 0 0)
             None None None tt eq_refl).
    left. reflexivity.
Defined.

(** X4. Which configurations can produce two problems in one call: with
    [present = true], some call yields two problems if and only if
    [0 <= max-empty-lines-after] and
    [max-empty-lines-after + 2 <= min-empty-lines-after].  In particular a
    configuration with [min <= max], or with the upper bound off, never
    gets two problems for one token. *)
Theorem check_two_problems_iff {Context : Type} (conf : Conf) (context : Context) :
  present conf = true ->
  ((exists token prev next nextnext,
      List.length (check conf token prev next nextnext context) = 2%nat) <->
   0 <= max_empty_lines_after conf /\
   max_empty_lines_after conf + 2 <= min_empty_lines_after conf).
Proof.
  intros Hp. split.
  - intros (token & prev & next & nextnext & Hlen).
    rewrite (check_require _ _ _ _ _ _ _ Hp) in Hlen.
    destruct prev as [p|]; [|discriminate].
    destruct (isinstance (Some p) _).
    { destruct (negb _); discriminate. }
    destruct (isinstance (Some p) _); [|discriminate].
    destruct ((max_empty_lines_after conf >=? 0)
              && (empty_lines token p >? max_empty_lines_after conf))%bool eqn:Hmax;
      destruct ((min_empty_lines_after conf >? 0)
                && (empty_lines token p <? min_empty_lines_after conf))%bool eqn:Hmin;
      try discriminate.
    reflect_tests. lia.
  - intros [Hmax Hmin].
    exists (tok ScalarToken (max_empty_lines_after conf + 2) 0),
           (Some (tok DocumentStartToken 0 0)), None, None.
    rewrite (check_require _ _ _ _ _ _ _ Hp).
    assert (He : empty_lines (tok ScalarToken (max_empty_lines_after conf + 2) 0)
                   (tok DocumentStartToken 0 0)
                 = max_empty_lines_after conf + 1)
      by (unfold empty_lines, tok; cbn [line start_mark]; lia).
    rewrite He.
    assert (H1 : ((max_empty_lines_after conf >=? 0)
                  && (max_empty_lines_after conf + 1
                      >? max_empty_lines_after conf))%bool = true).
    { rewrite andb_true_iff, Z.geb_le, Z.gtb_lt. lia. }
    assert (H2 : ((min_empty_lines_after conf >? 0)
                  && (max_empty_lines_after conf + 1
                      <? min_empty_lines_after conf))%bool = true).
    { rewrite andb_true_iff, Z.gtb_lt, Z.ltb_lt. lia. }
    cbn [isinstance existsb class tok orb].
    destruct (class_eq_dec DocumentStartToken StreamStartToken); [discriminate|].
    destruct (class_eq_dec DocumentStartToken DocumentEndToken); [discriminate|].
    destruct (class_eq_dec DocumentStartToken DirectiveToken); [discriminate|].
    destruct (class_eq_dec DocumentStartToken DocumentStartToken); [|congruence].
    cbn [orb]. rewrite H1, H2. reflexivity.
Qed.

Lemma check_two_problems_iff_witness :
  present (mkConf true 1 3) = true /\
  ((exists token prev next nextnext,
      List.length (check (mkConf true 1 3) token prev next nextnext tt) = 2%nat) <->
   0 <= max_empty_lines_after (mkConf true 1 3) /\
   max_empty_lines_after (mkConf true 1 3) + 2
     <= min_empty_lines_after (mkConf true 1 3)).
Proof.
  split; [reflexivity|].
  exact (check_two_problems_iff (mkConf true 1 3) tt eq_refl).
Defined.

Lemma isinstance_shift (k : Z) (t : Token) (classes : list TokenClass) :
  isinstance (Some (shift_token k t)) classes = isinstance (Some t) classes.
Proof. reflexivity. Qed.

Lemma empty_lines_shift (k : Z) (token p : Token) :
  empty_lines (shift_token k token) (shift_token k p) = empty_lines token p.
Proof. unfold empty_lines, shift_token. cbn [line start_mark]. lia. Qed.

(** X5. The rule does not depend on where in the file the tokens are:
    moving the current and the previous token down by the same number of
    lines moves every problem down by that number of lines and changes
    nothing else. *)
Theorem check_line_shift {Context : Type} (k : Z) (conf : Conf) (token : Token)
    (prev next nextnext : option Token) (context : Context) :
  check conf (shift_token k token) (option_map (shift_token k) prev)
        (option_map (shift_token k) next) (option_map (shift_token k) nextnext)
        context
  = map (shift_problem k) (check conf token prev next nextnext context).
Proof.
  assert (Hl : forall c m,
            LintProblem (line (start_mark (shift_token k token)) + 1) c m
            = shift_problem k (LintProblem (line (start_mark token) + 1) c m)).
  { intros c m. unfold shift_problem, shift_token.
    cbn [line start_mark LintProblem.line LintProblem.column LintProblem.desc].
    f_equal. lia. }
  destruct (present conf) eqn:Hp.
  - rewrite !(check_require _ _ _ _ _ _ _ Hp).
    destruct prev as [p|]; [|reflexivity].
    cbn [option_map]. rewrite !isinstance_shift, empty_lines_shift, !Hl.
    destruct (isinstance (Some p) _).
    + destruct (negb _); reflexivity.
    + destruct (isinstance (Some p) _); [|reflexivity].
      destruct (_ && _)%bool; destruct (_ && _)%bool; reflexivity.
  - rewrite !(check_forbid _ _ _ _ _ _ _ Hp), isinstance_shift, Hl.
    destruct (isinstance (Some token) _); reflexivity.
Qed.

(** X6. Of the previous token, [check] reads the class and the line only:
    two previous tokens of the same class on the same line give the same
    problems, whatever their columns. *)
Theorem check_prev_column_irrelevant {Context : Type} (conf : Conf)
    (token p p' : Token) (next nextnext : option Token) (context : Context) :
  class p = class p' ->
  line (start_mark p) = line (start_mark p') ->
  check conf token (Some p) next nextnext context
  = check conf token (Some p') next nextnext context.
Proof.
  intros Hc Hl.
  assert (Hi : forall cs, isinstance (Some p) cs = isinstance (Some p') cs).
  { intros cs. unfold isinstance. rewrite Hc. reflexivity. }
  assert (He : empty_lines token p = empty_lines token p').
  { unfold empty_lines. rewrite Hl. reflexivity. }
  destruct (present conf) eqn:Hp.
  - rewrite !(check_require _ _ _ _ _ _ _ Hp), !Hi, He. reflexivity.
  - rewrite !(check_forbid _ _ _ _ _ _ _ Hp). reflexivity.
Qed.

Lemma check_prev_column_irrelevant_witness :
  class (tok DocumentStartToken 2 0) = class (tok DocumentStartToken 2 7) /\
  line (start_mark (tok DocumentStartToken 2 0))
    = line (start_mark (tok DocumentStartToken 2 7)) /\
  check (mkConf true 0 0) (tok ScalarToken 5 1) (Some (tok DocumentStartToken 2 0))
        None None tt
  = check (mkConf true 0 0) (tok ScalarToken 5 1) (Some (tok DocumentStartToken 2 7))
          None None tt.
Proof.
  split; [reflexivity|]. split; [reflexivity|].
  exact (check_prev_column_irrelevant (mkConf true 0 0) (tok ScalarToken 5 1)
           (tok DocumentStartToken 2 0) (tok DocumentStartToken 2 7) None None tt
           eq_refl eq_refl).
Defined.

(** X7. The two modes never mix their messages: a problem that a call
    yields says [found forbidden document start "---"] exactly when
    [present = false]; with [present = true] it is one of the other
    three messages. *)
Theorem check_mode_messages {Context : Type} (conf : Conf) (token : Token)
    (prev next nextnext : option Token) (context : Context) (q : LintProblem.t) :
  In q (check conf token prev next nextnext context) ->
  (present conf = false /\ LintProblem.desc q = msg_forbidden) \/
  (present conf = true /\
   (LintProblem.desc q = msg_missing \/ LintProblem.desc q = msg_too_many \/
    LintProblem.desc q = msg_too_few) /\
   LintProblem.desc q <> msg_forbidden).
Proof.
  intros Hq. apply check_yielded in Hq.
  inversion Hq; subst; simpl; [right|right|right|left]; auto 6 with msgs.
Qed.

Lemma check_mode_messages_witness :
  In (LintProblem 1 1 msg_forbidden)
     (check (mkConf false 0 0) (tok DocumentStartToken 0 0)
        (Some (tok StreamStartToken 0 0)) None None tt) /\
  present (mkConf false 0 0) = false.
Proof.
  assert (H : In (LintProblem 1 1 msg_forbidden)
                (check (mkConf false 0 0) (tok DocumentStartToken 0 0)
                   (Some (tok StreamStartToken 0 0)) None None tt))
    by (left; reflexivity).
  split; [exact H|].
  destruct (check_mode_messages (mkConf false 0 0) (tok DocumentStartToken 0 0)
              (Some (tok StreamStartToken 0 0)) None None tt _ H)
    as [[Hp _]|[Hp _]]; [exact Hp | discriminate Hp].
Defined.

(** X8. Tightening the bounds never removes a problem: if [conf'] has the
    same [present] as [conf], an upper bound that is on and not above
    the one of [conf] (or [conf] has its upper bound off), and a lower
    bound not below the one of [conf], then every problem yielded under
    [conf] is yielded under [conf'] for the same tokens. *)
Theorem check_tightening_monotone {Context : Type} (conf conf' : Conf)
    (token : Token) (prev next nextnext : option Token) (context : Context) :
  present conf' = present conf ->
  (max_empty_lines_after conf < 0 \/
   (0 <= max_empty_lines_after conf' /\
    max_empty_lines_after conf' <= max_empty_lines_after conf)) ->
  min_empty_lines_after conf <= min_empty_lines_after conf' ->
  forall q, In q (check conf token prev next nextnext context) ->
            In q (check conf' token prev next nextnext context).
Proof.
  intros Hp Hmax Hmin q Hq. apply check_yielded. apply check_yielded in Hq.
  inversion Hq as [p Hpr ? ? ?|p Hpr ? ? ? ?|p Hpr ? ? ? ?|Hpr ?]; subst;
    rewrite <- Hp in Hpr.
  - now apply yielded_missing with p.
  - apply yielded_too_many with p; auto; lia.
  - apply yielded_too_few with p; auto; lia.
  - now apply yielded_forbidden.
Qed.

Lemma check_tightening_monotone_witness :
  present (mkConf true 1 2) = present (mkConf true 4 0) /\
  In (LintProblem 8 1 msg_too_many)
     (check (mkConf true 1 2) (tok ScalarToken 7 0)
        (Some (tok DocumentStartToken 1 0)) None None tt).
Proof.
  split; [reflexivity|].
  apply (check_tightening_monotone (mkConf true 4 0) (mkConf true 1 2)
           (tok ScalarToken 7 0) (Some (tok DocumentStartToken 1 0)) None None tt
           eq_refl).
  - right. simpl. lia.
  - simpl. lia.
  - left. reflexivity.
Defined.

(** X9. An empty stream gets no problem in either mode: for the stream
    start (first call, no previous token) and for a stream end that
    directly follows the stream start, [check] yields nothing, whatever
    the configuration. *)
Theorem check_empty_stream {Context : Type} (conf : Conf) (ss se : Token)
    (next nextnext next' nextnext' : option Token) (context : Context) :
  class ss = StreamStartToken ->
  class se = StreamEndToken ->
  check conf ss None next nextnext context = [] /\
  check conf se (Some ss) next' nextnext' context = [].
Proof.
  intros Hss Hse.
  assert (Hi : forall t, class t <> DocumentStartToken ->
                         isinstance (Some t) [DocumentStartToken] = false).
  { intros t Ht. apply isinstance_not_In. simpl. intuition. }
  destruct (present conf) eqn:Hp.
  - rewrite !(check_require _ _ _ _ _ _ _ Hp). split; [reflexivity|].
    assert (Ho : isinstance (Some ss)
                   [StreamStartToken; DocumentEndToken; DirectiveToken] = true).
    { apply isinstance_In. rewrite Hss. simpl. auto. }
    assert (Ht : isinstance (Some se)
                   [DocumentStartToken; DirectiveToken; StreamEndToken] = true).
    { apply isinstance_In. rewrite Hse. simpl. auto. }
    rewrite Ho, Ht. reflexivity.
  - rewrite !(check_forbid _ _ _ _ _ _ _ Hp), !Hi by congruence.
    split; reflexivity.
Qed.

Lemma check_empty_stream_witness :
  class (tok StreamStartToken 0 0) = StreamStartToken /\
  class (tok StreamEndToken 0 0) = StreamEndToken /\
  check (mkConf true 0 2) (tok StreamStartToken 0 0) None
        (Some (tok StreamEndToken 0 0)) None tt = [] /\
  check (mkConf true 0 2) (tok StreamEndToken 0 0) (Some (tok StreamStartToken 0 0))
        None None tt = [].
Proof.
  split; [reflexivity|]. split; [reflexivity|].
  exact (check_empty_stream (mkConf true 0 2) (tok StreamStartToken 0 0)
           (tok StreamEndToken 0 0) (Some (tok StreamEndToken 0 0)) None None None tt
           eq_refl eq_refl).
Defined.
